(** * The Backend web application: [source/main/app.py]

    The program under study is nine lines of Python:
<<
    from flask import Flask
    from source.main.config import create_app

    flask_app = create_app()


    @flask_app.route("/")
    def home_route():
        return "Hello World !"
>>
    It is embedded in four layers, each in a module of its own:
    - [Py]: Python computations, as functions from the state of the process
      to an outcome (a value or a raised exception), a new state and the
      trace of the calls and reads they made;
    - [Http], [Werkzeug], [Flask]: the part of the web framework that gives
      the two framework calls of the program their meaning, the [route]
      decorator and the dispatch of a request to a view function;
    - [Config]: the application factory [create_app];
    - [App]: the module [app.py] itself. *)

From Stdlib Require Import String Ascii List ZArith Lia.
From stdpp Require Import base gmap strings list.

Local Open Scope string_scope.
Local Open Scope Z_scope.
#[local] Set Warnings "-notation-for-abbreviation,-clear-no-such-hyp".

(** ** Python computations *)

Module Py.

(** The exceptions the modelled code can raise.  The two routing
    exceptions are werkzeug's [NotFound] and [MethodNotAllowed], the
    latter with its [valid_methods]. *)
Inductive exn : Type :=
| TypeError
| ValueError
| AttributeError
| AssertionError
| KeyError
| FileNotFoundError
| NotFound
| MethodNotAllowed (valid_methods : gset string).

(** What a computation does to the outside, in order. *)
Inductive event : Type :=
| Call (name : string)
| GetEnv (key : string)
| ReadArgv
| ReadFile (path : string)
| WriteFile (path : string).

(** The state of the process a computation runs in: the environment
    variables, the command line, the file system and the mutable objects
    of the interpreter, by name. *)
Record World : Type := mkWorld {
  environ : gmap string string;
  argv : list string;
  files : gmap string (list Byte.byte);
  heap : gmap string Z
}.

Inductive outcome (A : Type) : Type :=
| Returned (a : A)
| Raised (e : exn).
Arguments Returned {A} a.
Arguments Raised {A} e.

Record Result (A : Type) : Type := mkResult {
  value : outcome A;
  world : World;
  trace : list event
}.
Arguments mkResult {A} value world trace.
Arguments value {A} r.
Arguments world {A} r.
Arguments trace {A} r.

Definition M (A : Type) : Type := World -> Result A.

Definition ret {A} (a : A) : M A :=
  fun w => mkResult (Returned a) w [].

Definition raise {A} (e : exn) : M A :=
  fun w => mkResult (Raised e) w [].

Definition bind {A B} (m : M A) (k : A -> M B) : M B :=
  fun w =>
    let r := m w in
    match value r with
    | Returned a =>
        let r' := k a (world r) in
        mkResult (value r') (world r') (trace r ++ trace r')
    | Raised e => mkResult (Raised e) (world r) (trace r)
    end.

(** Sequencing is written [x ← m; k], with stdpp's notation. *)
#[global] Instance M_ret : MRet M := @ret.
#[global] Instance M_bind : MBind M := fun A B k m => bind m k.

(** [try: m  except Exception as e: h e] *)
Definition try {A} (m : M A) (h : exn -> M A) : M A :=
  fun w =>
    let r := m w in
    match value r with
    | Returned a => r
    | Raised e =>
        let r' := h e (world r) in
        mkResult (value r') (world r') (trace r ++ trace r')
    end.

Definition lift {A} (o : outcome A) : M A :=
  fun w => mkResult o w [].

Definition emit (ev : event) : M unit :=
  fun w => mkResult (Returned tt) w [ev].

(** A call of the function named [name] with body [m]. *)
Definition call {A} (name : string) (m : M A) : M A :=
  bind (emit (Call name)) (fun _ => m).

(** [os.environ.get(key)] *)
Definition getenv (key : string) : M (option string) :=
  fun w => mkResult (Returned (environ w !! key)) w [GetEnv key].

(** [sys.argv] *)
Definition sys_argv : M (list string) :=
  fun w => mkResult (Returned (argv w)) w [ReadArgv].

(** [open(path, "rb").read()] *)
Definition read_file (path : string) : M (list Byte.byte) :=
  fun w =>
    match files w !! path with
    | Some b => mkResult (Returned b) w [ReadFile path]
    | None => mkResult (Raised FileNotFoundError) w [ReadFile path]
    end.

(** [open(path, "wb").write(b)] *)
Definition write_file (path : string) (b : list Byte.byte) : M unit :=
  fun w =>
    mkResult (Returned tt)
      (mkWorld (environ w) (argv w) (<[path := b]> (files w)) (heap w))
      [WriteFile path].

(** [[f(x) for x in xs]], one call after the other. *)
Fixpoint mapM {A B} (f : A -> M B) (xs : list A) : M (list B) :=
  match xs with
  | [] => ret []
  | x :: xs' =>
      bind (f x) (fun y => bind (mapM f xs') (fun ys => ret (y :: ys)))
  end.

(** [n] runs of the same computation. *)
Definition times {A} (n : nat) (m : M A) : M (list A) :=
  mapM (fun _ : unit => m) (replicate n tt).

Definition is_call (name : string) (ev : event) : bool :=
  match ev with
  | Call n => bool_decide (n = name)
  | _ => false
  end.

(** How often the function [name] was called in a trace. *)
Definition count_calls (name : string) (tr : list event) : nat :=
  length (List.filter (is_call name) tr).

(** An event that reads the environment of the process: a variable, the
    command line or a file. *)
Definition is_read (ev : event) : bool :=
  match ev with
  | GetEnv _ | ReadArgv | ReadFile _ => true
  | Call _ | WriteFile _ => false
  end.

(** Keyword arguments of a call. *)
Definition kwargs : Type := list (string * string).

(** The call of a function defined with no parameter, [def f(): body],
    with the keyword arguments [kw].  Python raises [TypeError] for an
    unexpected keyword argument before the body runs. *)
Definition call0 {A} (body : M A) (kw : kwargs) : M A :=
  match kw with
  | [] => body
  | _ :: _ => raise TypeError
  end.

(** [str.upper] on the ASCII letters; a [str] is held as the UTF-8 bytes
    of its text. *)
Definition upper_ascii (c : ascii) : ascii :=
  let n := nat_of_ascii c in
  if ((97 <=? n)%nat && (n <=? 122)%nat)%bool
  then ascii_of_nat (n - 32) else c.

Fixpoint upper (s : string) : string :=
  match s with
  | EmptyString => EmptyString
  | String c s' => String (upper_ascii c) (upper s')
  end.

(** [str.encode("utf-8")] *)
Definition encode (s : string) : list Byte.byte := list_byte_of_string s.

End Py.


(** ** HTTP messages *)

Module Http.

Record Request : Type := mkRequest {
  method : string;
  path : string;
  query_string : string;
  headers : list (string * string);
  body : list Byte.byte
}.

(** A response object of the framework: its status, its content type, the
    methods of its [Allow] header and its body. *)
Record Response : Type := mkResponse {
  status_code : Z;
  mimetype : string;
  allow : gset string;
  data : list Byte.byte
}.

(** What the application hands to the server for one request: a response
    object, or the framework's own page for an HTTP error.  Writing the
    reply to the connection is the server's part and is not modelled; for a
    HEAD request the server sends the status and headers of the response
    object and leaves its body out. *)
Inductive Reply : Type :=
| Served (r : Response)
| ErrorPage (code : Z) (valid_methods : gset string).

Definition reply_status (rep : Reply) : Z :=
  match rep with
  | Served r => status_code r
  | ErrorPage code _ => code
  end.

End Http.

(** ** URL rules and their matching (werkzeug.routing)

    Only rules without variable parts are modelled: the path of such a rule
    matches a request path that is the same string and no other. *)

Module Werkzeug.

Record Rule : Type := mkRule {
  rule : string;
  methods : gset string;
  endpoint : string;
  provide_automatic_options : bool
}.

(** [Rule.__init__]: a rule starts with a slash, its methods are held in
    upper case, and a rule that answers GET answers HEAD too. *)
Definition new_rule (rule : string) (methods : gset string)
    (endpoint : string) : Py.outcome Rule :=
  if String.prefix "/" rule then
    let methods := set_map (D := gset String.string) Py.upper methods in
    let methods :=
      if decide (("HEAD" ∉ methods) ∧ ("GET" ∈ methods))
      then methods ∪ {["HEAD"]} else methods in
    Py.Returned (mkRule rule methods endpoint false)
  else Py.Raised Py.ValueError.

(** [MapAdapter.match]: the first rule whose path and methods both fit; a
    path that fits with methods that do not is remembered, and turns the
    final [NotFound] into [MethodNotAllowed]. *)
Fixpoint match_rules (rules : list Rule) (path method : string)
    (have_match_for : gset string) : Py.outcome (Rule * Py.kwargs) :=
  match rules with
  | [] =>
      if decide (have_match_for = ∅) then Py.Raised Py.NotFound
      else Py.Raised (Py.MethodNotAllowed have_match_for)
  | r :: rules' =>
      if decide (rule r = path) then
        if decide (method ∈ methods r) then Py.Returned (r, [])
        else match_rules rules' path method (have_match_for ∪ methods r)
      else match_rules rules' path method have_match_for
  end.

Definition match_ (rules : list Rule) (path method : string)
    : Py.outcome (Rule * Py.kwargs) :=
  match_rules rules path method ∅.

(** [MapAdapter.allowed_methods]: the methods of every rule the path fits. *)
Fixpoint allowed_methods (rules : list Rule) (path : string) : gset string :=
  match rules with
  | [] => ∅
  | r :: rules' =>
      if decide (rule r = path) then methods r ∪ allowed_methods rules' path
      else allowed_methods rules' path
  end.

End Werkzeug.

(** ** The application object (flask.Flask) *)

Module Flask.
Import Http Werkzeug.

(** What a view function may return. *)
Inductive ResponseReturnValue : Type :=
| RvNone
| RvStr (s : string)
| RvBytes (b : list Byte.byte)
| RvResponse (r : Response)
| RvHTTPException (code : Z) (valid_methods : gset string).

(** A function object: its identity, its name, and what calling it with
    keyword arguments does. *)
Record ViewFunc : Type := mkViewFunc {
  object_id : positive;
  __name__ : string;
  __call__ : Py.kwargs -> Py.M ResponseReturnValue
}.

(** The two tables of an application that registering a route writes to.
    Everything else of the object (configuration, hooks, error handlers)
    stays as the framework sets it up. *)
Record App : Type := mkApp {
  url_map : list Rule;
  view_functions : gmap string ViewFunc
}.

(** [Flask(import_name)], without the framework's route for static files
    (it serves paths below [/static/] only). *)
Definition new_app : App := mkApp [] ∅.

(** [Flask.add_url_rule(rule, endpoint, view_func, methods=methods)].
    The application object is updated in place; the updated object is the
    value of the computation. *)
Definition add_url_rule (app : App) (rule : string) (endpoint : option string)
    (view_func : ViewFunc) (methods : option (list string)) : Py.M App :=
  let endpoint :=
    match endpoint with
    | Some e => e
    | None => __name__ view_func
    end in
  let methods :=
    match methods with
    | Some ms => ms
    | None => ["GET"]
    end in
  let methods : gset string := list_to_set (Py.upper <$> methods) in
  let provide_automatic_options := bool_decide ("OPTIONS" ∉ methods) in
  let required_methods : gset string :=
    if provide_automatic_options then {["OPTIONS"]} else ∅ in
  let methods := methods ∪ required_methods in
  rule_obj ← Py.lift (new_rule rule methods endpoint);
  let rule_obj :=
    mkRule (Werkzeug.rule rule_obj) (Werkzeug.methods rule_obj)
      (Werkzeug.endpoint rule_obj) provide_automatic_options in
  let url_map' := (url_map app ++ [rule_obj])%list in
  match view_functions app !! endpoint with
  | Some old_func =>
      if decide (object_id old_func = object_id view_func)
      then Py.ret (mkApp url_map' (<[endpoint := view_func]> (view_functions app)))
      else Py.raise Py.AssertionError
  | None =>
      Py.ret (mkApp url_map' (<[endpoint := view_func]> (view_functions app)))
  end.

(** [@app.route(rule)] applied to [f]: registers [f] and hands it back
    unchanged. *)
Definition route (app : App) (rule : string) (f : ViewFunc)
    : Py.M (App * ViewFunc) :=
  app' ← add_url_rule app rule None f None;
  Py.ret (app', f).

(** [Flask.make_default_options_response] *)
Definition make_default_options_response (app : App) (req : Request)
    : Py.M ResponseReturnValue :=
  Py.ret (RvResponse
    (mkResponse 200 "text/html" (allowed_methods (url_map app) (path req)) [])).

(** [Flask.dispatch_request]: match the request; answer OPTIONS for a rule
    with automatic options without calling any view; otherwise call the
    view function of the rule's endpoint. *)
Definition dispatch_request (app : App) (req : Request)
    : Py.M ResponseReturnValue :=
  '(rule, view_args) ← Py.lift (match_ (url_map app) (path req) (method req));
  if (provide_automatic_options rule
      && bool_decide (method req = "OPTIONS"))%bool
  then make_default_options_response app req
  else
    match view_functions app !! endpoint rule with
    | Some f => Py.call (__name__ f) (__call__ f view_args)
    | None => Py.raise Py.KeyError
    end.

(** [Flask.handle_user_exception]: an HTTP exception becomes the value to
    respond with, any other exception is raised again. *)
Definition handle_user_exception (e : Py.exn) : Py.M ResponseReturnValue :=
  match e with
  | Py.NotFound => Py.ret (RvHTTPException 404 ∅)
  | Py.MethodNotAllowed valid_methods =>
      Py.ret (RvHTTPException 405 valid_methods)
  | _ => Py.raise e
  end.

(** [Flask.make_response]: a [str] is encoded and served with status 200. *)
Definition make_response (rv : ResponseReturnValue) : Py.M Reply :=
  match rv with
  | RvNone => Py.raise Py.TypeError
  | RvStr s => Py.ret (Served (mkResponse 200 "text/html" ∅ (Py.encode s)))
  | RvBytes b => Py.ret (Served (mkResponse 200 "text/html" ∅ b))
  | RvResponse r => Py.ret (Served r)
  | RvHTTPException code valid_methods => Py.ret (ErrorPage code valid_methods)
  end.

(** [Flask.full_dispatch_request] *)
Definition full_dispatch_request (app : App) (req : Request) : Py.M Reply :=
  rv ← Py.try (dispatch_request app req) handle_user_exception;
  make_response rv.

(** [Flask.wsgi_app]: an exception that escapes the dispatch is answered
    with status 500. *)
Definition wsgi_app (app : App) (req : Request) : Py.M Reply :=
  Py.try (full_dispatch_request app req) (fun _ => Py.ret (ErrorPage 500 ∅)).

End Flask.

(** ** The application factory (source/main/config.py) *)

Module Config.

(** Modelled from the spec: [create_app], which [app.py] imports from
    [source.main.config], is not among the sources.  The spec describes it
    as a function with no parameters that constructs and returns a
    ready-to-serve application instance with default framework behaviour,
    acquiring no external resource and with no observable effect other than
    returning the object.  A Python call may return [None]; the value is
    therefore an [option]. *)
Definition create_app : Py.M (option Flask.App) :=
  Py.ret (Some Flask.new_app).

End Config.

(** ** The module [app.py] *)

Module App.
Import Http Flask.

(** [def home_route(): return "Hello World !"] *)
Definition home_route : ViewFunc :=
  mkViewFunc 1 "home_route" (Py.call0 (Py.ret (RvStr "Hello World !"))).

(** The names the module binds when its import ends. *)
Record Globals : Type := mkGlobals {
  flask_app : App
}.

(** The statements of the module, run once when it is imported:
    [flask_app = create_app()], then the decorated definition, which
    evaluates [flask_app.route("/")] and applies it to [home_route].
    The attribute [route] of [None] does not exist. *)
Definition module_body : Py.M Globals :=
  created ← Py.call "create_app" Config.create_app;
  match created with
  | None => Py.raise Py.AttributeError
  | Some app =>
      '(app', _) ← route app "/" home_route;
      Py.ret (mkGlobals app')
  end.

(** One request, handed by the server to the imported application. *)
Definition serve (g : Globals) (req : Request) : Py.M Reply :=
  wsgi_app (flask_app g) req.

(** The life of the process: the import, then the requests in the order
    the server hands them over. *)
Definition process (reqs : list Request) : Py.M (list Reply) :=
  g ← module_body;
  Py.mapM (serve g) reqs.

(** Whether serving the request called the root handler. *)
Definition dispatched_to_home_route (g : Globals) (req : Request)
    (w : Py.World) : bool :=
  existsb (Py.is_call (__name__ home_route)) (Py.trace (serve g req w)).

(** The statements of the module once more, with the factory that line 2
    imports left open: [module_body] is [module_body_with Config.create_app].
    What the import and the routing do then depends on what the factory
    hands back. *)
Definition module_body_with (factory : Py.M (option App)) : Py.M Globals :=
  created ← Py.call "create_app" factory;
  match created with
  | None => Py.raise Py.AttributeError
  | Some app =>
      '(app', _) ← route app "/" home_route;
      Py.ret (mkGlobals app')
  end.

End App.

(** * Properties *)

Import Http Werkzeug Flask App.

(** The methods of the rule that [route] builds when it is given none:
    GET by default, OPTIONS for the automatic answer, HEAD along with GET. *)
Local Notation root_methods :=
  ({["GET"]} ∪ {["OPTIONS"]} ∪ {["HEAD"]} : gset string).
Local Notation root_rule := (mkRule "/" root_methods "home_route" true).
Local Notation hello_bytes :=
  [Byte.x48; Byte.x65; Byte.x6c; Byte.x6c; Byte.x6f; Byte.x20; Byte.x57;
   Byte.x6f; Byte.x72; Byte.x6c; Byte.x64; Byte.x20; Byte.x21].
Local Notation hello_response := (mkResponse 200 "text/html" ∅ hello_bytes).
Local Notation options_response := (mkResponse 200 "text/html" root_methods []).

(** ** The import *)

(** Importing the module succeeds in every state of the process, changes
    nothing in it, calls the factory and nothing else, and leaves an
    application with one rule and one view function. *)
Lemma module_body_run (w : Py.World) :
  module_body w =
  Py.mkResult
    (Py.Returned (mkGlobals (mkApp [root_rule] {["home_route" := home_route]})))
    w [Py.Call "create_app"].
Proof. vm_compute. reflexivity. Qed.

Lemma imported_globals (w : Py.World) (g : Globals) :
  Py.value (module_body w) = Py.Returned g ->
  g = mkGlobals (mkApp [root_rule] {["home_route" := home_route]}).
Proof. rewrite module_body_run. simpl. congruence. Qed.

(** ** Matching against the one rule *)

Lemma root_methods_elem (m : string) :
  m ∈ root_methods <-> m = "GET" \/ m = "OPTIONS" \/ m = "HEAD".
Proof. set_solver. Qed.

Lemma match_root (p m : string) :
  match_ [root_rule] p m =
  if decide ("/" = p) then
    if decide (m ∈ root_methods) then Py.Returned (root_rule, [])
    else Py.Raised (Py.MethodNotAllowed root_methods)
  else Py.Raised Py.NotFound.
Proof.
  unfold match_. simpl.
  destruct (decide ("/" = p)) as [Hp|Hp]; [|reflexivity].
  destruct (decide (m ∈ root_methods)) as [Hm|Hm]; [reflexivity|].
  rewrite (left_id_L ∅ (∪)).
  destruct (decide (root_methods = ∅)) as [He|He]; [|reflexivity].
  exfalso. assert (H : "GET" ∈ root_methods) by set_solver.
  rewrite He in H. set_solver.
Qed.

(** ** One request *)

(** What the imported application does with a request, by its path and
    method. *)
Lemma serve_run (req : Request) (w : Py.World) :
  serve (mkGlobals (mkApp [root_rule] {["home_route" := home_route]})) req w =
  if decide ("/" = path req) then
    if decide (method req = "OPTIONS") then
      Py.mkResult (Py.Returned (Served options_response)) w []
    else if decide (method req = "GET" \/ method req = "HEAD") then
      Py.mkResult (Py.Returned (Served hello_response)) w
        [Py.Call "home_route"]
    else Py.mkResult (Py.Returned (ErrorPage 405 root_methods)) w []
  else Py.mkResult (Py.Returned (ErrorPage 404 ∅)) w [].
Proof.
  unfold serve, wsgi_app, full_dispatch_request, dispatch_request. simpl.
  unfold Py.try, mbind, Py.M_bind, Py.bind, Py.lift. simpl.
  rewrite match_root.
  destruct (decide ("/" = path req)) as [Hp|Hp]; [|reflexivity].
  destruct (decide (method req = "OPTIONS")) as [Ho|Ho].
  - rewrite decide_True by (rewrite Ho; set_solver). simpl.
    rewrite bool_decide_eq_true_2 by exact Ho. simpl.
    rewrite <- Hp, decide_True by reflexivity.
    rewrite (right_id_L ∅ (∪)). reflexivity.
  - destruct (decide (method req = "GET" \/ method req = "HEAD")) as [Hg|Hg].
    + rewrite decide_True by (apply root_methods_elem; tauto). simpl.
      rewrite bool_decide_eq_false_2 by exact Ho. simpl.
      rewrite lookup_singleton_eq. reflexivity.
    + rewrite decide_False by (rewrite root_methods_elem; tauto).
      reflexivity.
Qed.

(** A POST request to [/] finds the path but not the method, a GET request
    to [/missing] finds no rule: neither is answered with status 200, and
    neither calls a view function. *)
Example post_root_not_allowed (w : Py.World) :
  serve (mkGlobals (mkApp [root_rule] {["home_route" := home_route]}))
    (mkRequest "POST" "/" "" [] []) w =
  Py.mkResult (Py.Returned (ErrorPage 405 root_methods)) w [].
Proof. rewrite serve_run. reflexivity. Qed.

Example get_missing_not_found (w : Py.World) :
  serve (mkGlobals (mkApp [root_rule] {["home_route" := home_route]}))
    (mkRequest "GET" "/missing" "" [] []) w =
  Py.mkResult (Py.Returned (ErrorPage 404 ∅)) w [].
Proof. rewrite serve_run. reflexivity. Qed.

Lemma dispatched_run (req : Request) (w : Py.World) :
  dispatched_to_home_route
    (mkGlobals (mkApp [root_rule] {["home_route" := home_route]})) req w =
  bool_decide ((method req = "GET" \/ method req = "HEAD") /\ "/" = path req).
Proof.
  unfold dispatched_to_home_route. rewrite serve_run.
  destruct (decide ("/" = path req)) as [Hp|Hp].
  - destruct (decide (method req = "OPTIONS")) as [Ho|Ho].
    + simpl. symmetry. apply bool_decide_eq_false_2.
      rewrite Ho. intros [[H|H] _]; discriminate H.
    + destruct (decide (method req = "GET" \/ method req = "HEAD")) as [Hg|Hg].
      * simpl. symmetry. apply bool_decide_eq_true_2. tauto.
      * simpl. symmetry. apply bool_decide_eq_false_2. tauto.
  - simpl. symmetry. apply bool_decide_eq_false_2. tauto.
Qed.

(** ** The root handler, called directly *)

Lemma home_route_run (w : Py.World) :
  __call__ home_route [] w =
  Py.mkResult (Py.Returned (RvStr "Hello World !")) w [].
Proof. reflexivity. Qed.

(** ** Sequencing *)

Lemma bind_returned {A B} (m : Py.M A) (k : A -> Py.M B) (w w' : Py.World)
    (a : A) (tr : list Py.event) :
  m w = Py.mkResult (Py.Returned a) w' tr ->
  Py.bind m k w =
  Py.mkResult (Py.value (k a w')) (Py.world (k a w'))
    (tr ++ Py.trace (k a w')).
Proof. intros Hm. unfold Py.bind. rewrite Hm. reflexivity. Qed.

(** Running a computation that returns the same value in every state and
    changes nothing: [n] runs give [n] copies of the value, and of the
    trace. *)
Lemma times_of_constant {A} (m : Py.M A) (a : A) (tr : list Py.event)
    (n : nat) (w : Py.World) :
  (forall w', m w' = Py.mkResult (Py.Returned a) w' tr) ->
  Py.times n m w =
  Py.mkResult (Py.Returned (replicate n a)) w (concat (replicate n tr)).
Proof.
  intros Hm. unfold Py.times.
  induction n as [|n IH]; [reflexivity|].
  simpl. rewrite (bind_returned _ _ w w a tr) by apply Hm.
  rewrite (bind_returned _ _ w w (replicate n a) (concat (replicate n tr)))
    by exact IH.
  simpl. rewrite app_nil_r. reflexivity.
Qed.

(** Requests served one after the other by the imported application: all
    are answered, the state of the process stays as it was, and the only
    calls made are calls of the root handler. *)
Lemma mapM_serve_run (reqs : list Request) (w : Py.World) :
  exists reps tr,
    Py.mapM
      (serve (mkGlobals (mkApp [root_rule] {["home_route" := home_route]})))
      reqs w = Py.mkResult (Py.Returned reps) w tr /\
    length reps = length reqs /\
    Forall (fun ev => ev = Py.Call "home_route") tr.
Proof.
  induction reqs as [|req reqs IH].
  - exists [], []. simpl. auto.
  - destruct IH as (reps & tr & Hrun & Hlen & Htr).
    assert (Hone : exists rep tr1,
      serve (mkGlobals (mkApp [root_rule] {["home_route" := home_route]}))
        req w = Py.mkResult (Py.Returned rep) w tr1 /\
      Forall (fun ev => ev = Py.Call "home_route") tr1).
    { rewrite serve_run. repeat case_decide; eauto. }
    destruct Hone as (rep & tr1 & Hserve & Htr1).
    exists (rep :: reps), (tr1 ++ tr)%list. simpl.
    rewrite (bind_returned _ _ w w rep tr1) by exact Hserve.
    rewrite (bind_returned _ _ w w reps tr) by exact Hrun.
    simpl. rewrite app_nil_r. split; [reflexivity|].
    split; [congruence|]. apply Forall_app. auto.
Qed.

Lemma count_calls_other (name : string) (tr : list Py.event) :
  name <> "home_route" ->
  Forall (fun ev => ev = Py.Call "home_route") tr ->
  Py.count_calls name tr = 0%nat.
Proof.
  intros Hne Htr. unfold Py.count_calls.
  induction Htr as [|ev tr Hev _ IH]; [reflexivity|].
  subst ev. simpl. rewrite bool_decide_eq_false_2 by congruence. exact IH.
Qed.

(** * The claims *)

Section Imported.

(** [g] holds the names bound by an import of the module, in some state
    [w0] of the process. *)
Variable w0 : Py.World.
Variable g : Globals.
Hypothesis imported : Py.value (module_body w0) = Py.Returned g.

(** C1.  A GET request to the path [/] is answered with a response whose
    body is, byte for byte, the thirteen bytes of [Hello World !]: the
    twelfth is the space (20) before the exclamation mark (21), and nothing
    comes before or after. *)
Theorem root_response_body (req : Request) (w : Py.World) :
  method req = "GET" -> path req = "/" ->
  exists r,
    Py.value (serve g req w) = Py.Returned (Served r) /\
    data r =
      [Byte.x48; Byte.x65; Byte.x6c; Byte.x6c; Byte.x6f; Byte.x20; Byte.x57;
       Byte.x6f; Byte.x72; Byte.x6c; Byte.x64; Byte.x20; Byte.x21] /\
    data r = Py.encode "Hello World !".
Proof.
  intros Hm Hp. rewrite (imported_globals _ _ imported), serve_run.
  rewrite decide_True by congruence.
  rewrite decide_False by (rewrite Hm; discriminate).
  rewrite decide_True by tauto.
  exists hello_response. simpl. auto.
Qed.

(** C2.  A GET request to the path [/] is answered with status 200. *)
Theorem root_response_status (req : Request) (w : Py.World) :
  method req = "GET" -> path req = "/" ->
  exists rep,
    Py.value (serve g req w) = Py.Returned rep /\ reply_status rep = 200.
Proof.
  intros Hm Hp. rewrite (imported_globals _ _ imported), serve_run.
  rewrite decide_True by congruence.
  rewrite decide_False by (rewrite Hm; discriminate).
  rewrite decide_True by tauto.
  exists (Served hello_response). simpl. auto.
Qed.

(** C3.  [n] calls of the root handler with the same (empty) arguments
    return [n] times the same value, and [n] times the same GET request to
    [/] is answered [n] times with the same response; in both cases the
    state of the process after the [n] runs is the state before them. *)
Theorem root_handler_idempotent (n : nat) (req : Request) (w : Py.World) :
  method req = "GET" -> path req = "/" ->
  Py.times n (__call__ home_route []) w =
    Py.mkResult (Py.Returned (replicate n (RvStr "Hello World !"))) w [] /\
  exists rep,
    Py.value (Py.times n (serve g req) w) = Py.Returned (replicate n rep) /\
    Py.world (Py.times n (serve g req) w) = w.
Proof.
  intros Hm Hp. split.
  - rewrite (times_of_constant _ (RvStr "Hello World !") [] n w)
      by (intros w'; apply home_route_run).
    f_equal. induction n as [|k IH]; [reflexivity|exact IH].
  - exists (Served hello_response).
    rewrite (times_of_constant _ (Served hello_response)
               [Py.Call "home_route"] n w).
    + simpl. auto.
    + intros w'. rewrite (imported_globals _ _ imported), serve_run.
      rewrite decide_True by congruence.
      rewrite decide_False by (rewrite Hm; discriminate).
      rewrite decide_True by tauto. reflexivity.
Qed.

(** C4.  A call of the root handler returns a value in every state of the
    process: it raises nothing, leaves the state as it found it and makes
    no call and no read or write of its own.  So does every request that
    reaches it: it is answered, not failed, and the only event of serving
    it is the call of the handler itself. *)
Theorem root_handler_cannot_fail (req : Request) (w : Py.World) :
  dispatched_to_home_route g req w = true ->
  (exists rv, __call__ home_route [] w = Py.mkResult (Py.Returned rv) w []) /\
  (exists r,
     serve g req w =
     Py.mkResult (Py.Returned (Served r)) w [Py.Call "home_route"]).
Proof.
  intros Hd. split.
  - exists (RvStr "Hello World !"). apply home_route_run.
  - revert Hd. rewrite (imported_globals _ _ imported).
    rewrite dispatched_run, serve_run.
    intros Hd. apply bool_decide_eq_true_1 in Hd. destruct Hd as [Hm Hp].
    rewrite decide_True by exact Hp.
    rewrite decide_False by (destruct Hm as [Hm|Hm]; rewrite Hm; discriminate).
    rewrite decide_True by exact Hm.
    exists hello_response. reflexivity.
Qed.


(** C9, as amended.  The rule registered for [/] carries no method list of
    the program's own, so it accepts HEAD and OPTIONS besides GET.  A HEAD
    request to [/] reaches the root handler and gets its response.  An
    OPTIONS request to [/] is accepted too, but the framework answers it
    itself, with status 200, an empty body and the three methods in
    [Allow], and does not call the root handler. *)
Theorem head_and_options_on_root (q : string) (h : list (string * string))
    (b : list Byte.byte) (w : Py.World) :
  (dispatched_to_home_route g (mkRequest "HEAD" "/" q h b) w = true /\
   exists r,
     Py.value (serve g (mkRequest "HEAD" "/" q h b) w)
     = Py.Returned (Served r) /\
     status_code r = 200 /\ data r = Py.encode "Hello World !") /\
  (dispatched_to_home_route g (mkRequest "OPTIONS" "/" q h b) w = false /\
   Py.value (serve g (mkRequest "OPTIONS" "/" q h b) w) =
     Py.Returned
       (Served (mkResponse 200 "text/html"
                  ({["GET"]} ∪ {["OPTIONS"]} ∪ {["HEAD"]}) []))).
Proof.
  rewrite (imported_globals _ _ imported).
  rewrite !dispatched_run, !serve_run. simpl.
  split; split; try reflexivity.
  exists hello_response. simpl. auto.
Qed.

(** C10.  Two requests that reach the root handler get the same reply,
    whatever their headers, query strings and bodies are, and whatever the
    state of the process is when each is served. *)
Theorem root_response_noninterference (req1 req2 : Request)
    (w1 w2 : Py.World) :
  dispatched_to_home_route g req1 w1 = true ->
  dispatched_to_home_route g req2 w2 = true ->
  Py.value (serve g req1 w1) = Py.value (serve g req2 w2) /\
  Py.trace (serve g req1 w1) = Py.trace (serve g req2 w2).
Proof.
  rewrite (imported_globals _ _ imported).
  rewrite !dispatched_run, !serve_run. intros H1 H2.
  apply bool_decide_eq_true_1 in H1. destruct H1 as [Hm1 Hp1].
  apply bool_decide_eq_true_1 in H2. destruct H2 as [Hm2 Hp2].
  rewrite !(decide_True _ _ Hp1), !(decide_True _ _ Hp2).
  rewrite (decide_False (P := method req1 = "OPTIONS"))
    by (destruct Hm1 as [H|H]; rewrite H; discriminate).
  rewrite (decide_False (P := method req2 = "OPTIONS"))
    by (destruct Hm2 as [H|H]; rewrite H; discriminate).
  rewrite !(decide_True _ _ Hm1), !(decide_True _ _ Hm2).
  split; reflexivity.
Qed.

End Imported.

(** ** The factory and the process *)

(** C6.  The factory is called with no argument and is a computation that
    depends on nothing a caller passes.  Running it leaves the state of the
    process as it was and makes no call, read or write.  In the life of the
    process, whatever requests are served, it is called exactly once: the
    call is the first event, and no later event is a call of it. *)
Theorem factory_called_once_at_startup (reqs : list Request) (w : Py.World) :
  (Py.world (Config.create_app w) = w /\ Py.trace (Config.create_app w) = []) /\
  Py.count_calls "create_app" (Py.trace (process reqs w)) = 1%nat /\
  exists tr,
    Py.trace (process reqs w) = Py.Call "create_app" :: tr /\
    Py.count_calls "create_app" tr = 0%nat.
Proof.
  split; [split; reflexivity|].
  destruct (mapM_serve_run reqs w) as (reps & tr & Hrun & _ & Htr).
  assert (Hp : Py.trace (process reqs w) = Py.Call "create_app" :: tr).
  { unfold process, mbind, Py.M_bind.
    rewrite (bind_returned _ _ w w _ [Py.Call "create_app"])
      by apply module_body_run.
    rewrite Hrun. reflexivity. }
  assert (H0 : Py.count_calls "create_app" tr = 0%nat)
    by (apply count_calls_other; [discriminate|exact Htr]).
  split.
  - rewrite Hp. unfold Py.count_calls in *. simpl. rewrite H0. reflexivity.
  - exists tr. auto.
Qed.

(** C7.  Every call of the factory with no argument returns an application
    object, never [None] and never an exception: [n] calls in a row return
    [n] objects and leave the process as it was. *)
Theorem factory_returns_app_every_call (n : nat) (w : Py.World) :
  exists app,
    Py.times n (Py.call "create_app" Config.create_app) w =
    Py.mkResult (Py.Returned (replicate n (Some app))) w
      (replicate n (Py.Call "create_app")).
Proof.
  exists new_app.
  rewrite (times_of_constant _ (Some new_app) [Py.Call "create_app"] n w)
    by reflexivity.
  f_equal. induction n as [|k IH]; [reflexivity|]. simpl. f_equal. exact IH.
Qed.

(** C8.  Producing the application reads nothing of the environment of the
    process: the factory and the import of the module give the same value
    in any two states of the process (whatever the environment variables,
    the command line and the files are), and the import reads no variable,
    no command line and no file. *)
Theorem factory_ignores_environment (w1 w2 : Py.World) :
  Py.value (Config.create_app w1) = Py.value (Config.create_app w2) /\
  Py.value (module_body w1) = Py.value (module_body w2) /\
  existsb Py.is_read (Py.trace (module_body w1)) = false.
Proof.
  rewrite !module_body_run. split; [reflexivity|]. split; reflexivity.
Qed.

(** ** Where the claims C5 and C9 fail *)


(** C9 says that an OPTIONS request to [/] is dispatched to the root handler.
    It is answered without a call of the handler. *)
Lemma options_request_skips_home_route :
  exists g,
    Py.value (module_body (Py.mkWorld ∅ [] ∅ ∅)) = Py.Returned g /\
    path (mkRequest "OPTIONS" "/" "" [] []) = "/" /\
    method (mkRequest "OPTIONS" "/" "" [] []) = "OPTIONS" /\
    dispatched_to_home_route g (mkRequest "OPTIONS" "/" "" [] [])
      (Py.mkWorld ∅ [] ∅ ∅) = false /\
    Py.trace (serve g (mkRequest "OPTIONS" "/" "" [] []) (Py.mkWorld ∅ [] ∅ ∅))
      = [].
Proof.
  eexists. split; [rewrite module_body_run; reflexivity|].
  split; [reflexivity|]. split; [reflexivity|].
  split; [rewrite dispatched_run; reflexivity|].
  rewrite serve_run. reflexivity.
Qed.

(** ** The theorems at concrete requests *)

Lemma root_response_body_witness :
  exists r,
    Py.value
      (serve (mkGlobals (mkApp [root_rule] {["home_route" := home_route]}))
         (mkRequest "GET" "/" "lang=en" [("Accept", "text/html")] [])
         (Py.mkWorld ∅ [] ∅ ∅)) = Py.Returned (Served r) /\
    data r =
      [Byte.x48; Byte.x65; Byte.x6c; Byte.x6c; Byte.x6f; Byte.x20; Byte.x57;
       Byte.x6f; Byte.x72; Byte.x6c; Byte.x64; Byte.x20; Byte.x21] /\
    data r = Py.encode "Hello World !".
Proof.
  apply (root_response_body (Py.mkWorld ∅ [] ∅ ∅)).
  - vm_compute. reflexivity.
  - reflexivity.
  - reflexivity.
Defined.

Lemma root_response_status_witness :
  exists rep,
    Py.value
      (serve (mkGlobals (mkApp [root_rule] {["home_route" := home_route]}))
         (mkRequest "GET" "/" "" [] []) (Py.mkWorld ∅ [] ∅ ∅))
    = Py.Returned rep /\
    reply_status rep = 200.
Proof.
  apply (root_response_status (Py.mkWorld ∅ [] ∅ ∅)).
  - vm_compute. reflexivity.
  - reflexivity.
  - reflexivity.
Defined.

Lemma root_handler_idempotent_witness :
  Py.times 3 (__call__ home_route []) (Py.mkWorld ∅ [] ∅ ∅) =
    Py.mkResult (Py.Returned (replicate 3 (RvStr "Hello World !")))
      (Py.mkWorld ∅ [] ∅ ∅) [] /\
  exists rep,
    Py.value
      (Py.times 3
         (serve (mkGlobals (mkApp [root_rule] {["home_route" := home_route]}))
            (mkRequest "GET" "/" "" [] []))
         (Py.mkWorld ∅ [] ∅ ∅)) = Py.Returned (replicate 3 rep) /\
    Py.world
      (Py.times 3
         (serve (mkGlobals (mkApp [root_rule] {["home_route" := home_route]}))
            (mkRequest "GET" "/" "" [] []))
         (Py.mkWorld ∅ [] ∅ ∅)) = Py.mkWorld ∅ [] ∅ ∅.
Proof.
  apply (root_handler_idempotent (Py.mkWorld ∅ [] ∅ ∅)).
  - vm_compute. reflexivity.
  - reflexivity.
  - reflexivity.
Defined.

Lemma root_handler_cannot_fail_witness :
  (exists rv,
     __call__ home_route [] (Py.mkWorld ∅ [] ∅ ∅) =
     Py.mkResult (Py.Returned rv) (Py.mkWorld ∅ [] ∅ ∅) []) /\
  (exists r,
     serve (mkGlobals (mkApp [root_rule] {["home_route" := home_route]}))
       (mkRequest "GET" "/" "" [] [Byte.x7b; Byte.x7d]) (Py.mkWorld ∅ [] ∅ ∅) =
     Py.mkResult (Py.Returned (Served r)) (Py.mkWorld ∅ [] ∅ ∅)
       [Py.Call "home_route"]).
Proof.
  apply (root_handler_cannot_fail (Py.mkWorld ∅ [] ∅ ∅)).
  - vm_compute. reflexivity.
  - vm_compute. reflexivity.
Defined.


Lemma head_and_options_on_root_witness :
  (dispatched_to_home_route
     (mkGlobals (mkApp [root_rule] {["home_route" := home_route]}))
     (mkRequest "HEAD" "/" "" [] []) (Py.mkWorld ∅ [] ∅ ∅) = true /\
   exists r,
     Py.value
       (serve (mkGlobals (mkApp [root_rule] {["home_route" := home_route]}))
          (mkRequest "HEAD" "/" "" [] []) (Py.mkWorld ∅ [] ∅ ∅))
     = Py.Returned (Served r) /\
     status_code r = 200 /\ data r = Py.encode "Hello World !") /\
  (dispatched_to_home_route
     (mkGlobals (mkApp [root_rule] {["home_route" := home_route]}))
     (mkRequest "OPTIONS" "/" "" [] []) (Py.mkWorld ∅ [] ∅ ∅) = false /\
   Py.value
     (serve (mkGlobals (mkApp [root_rule] {["home_route" := home_route]}))
        (mkRequest "OPTIONS" "/" "" [] []) (Py.mkWorld ∅ [] ∅ ∅)) =
     Py.Returned
       (Served (mkResponse 200 "text/html"
                  ({["GET"]} ∪ {["OPTIONS"]} ∪ {["HEAD"]}) []))).
Proof.
  apply (head_and_options_on_root (Py.mkWorld ∅ [] ∅ ∅)).
  vm_compute. reflexivity.
Defined.

Lemma root_response_noninterference_witness :
  Py.value
    (serve (mkGlobals (mkApp [root_rule] {["home_route" := home_route]}))
       (mkRequest "GET" "/" "a=1" [("Cookie", "k=v")] [])
       (Py.mkWorld ∅ [] ∅ ∅)) =
  Py.value
    (serve (mkGlobals (mkApp [root_rule] {["home_route" := home_route]}))
       (mkRequest "HEAD" "/" "" [] [Byte.x61])
       (Py.mkWorld {["HOME" := "/root"]} ["app.py"] ∅ ∅)) /\
  Py.trace
    (serve (mkGlobals (mkApp [root_rule] {["home_route" := home_route]}))
       (mkRequest "GET" "/" "a=1" [("Cookie", "k=v")] [])
       (Py.mkWorld ∅ [] ∅ ∅)) =
  Py.trace
    (serve (mkGlobals (mkApp [root_rule] {["home_route" := home_route]}))
       (mkRequest "HEAD" "/" "" [] [Byte.x61])
       (Py.mkWorld {["HOME" := "/root"]} ["app.py"] ∅ ∅)).
Proof.
  apply (root_response_noninterference (Py.mkWorld ∅ [] ∅ ∅)).
  - vm_compute. reflexivity.
  - vm_compute. reflexivity.
  - vm_compute. reflexivity.
Defined.

(** * Beyond the claims *)

(** ** Every request *)

Section EveryRequest.

Variable w0 : Py.World.
Variable g : Globals.
Hypothesis imported : Py.value (module_body w0) = Py.Returned g.





End EveryRequest.

(** ** The requests of a process *)

Lemma count_calls_app (name : string) (tr1 tr2 : list Py.event) :
  Py.count_calls name (tr1 ++ tr2) =
  (Py.count_calls name tr1 + Py.count_calls name tr2)%nat.
Proof.
  unfold Py.count_calls. rewrite List.filter_app. apply length_app.
Qed.

(** One request calls the root handler once or not at all. *)
Lemma serve_count_calls (req : Request) (w : Py.World) :
  Py.count_calls "home_route"
    (Py.trace
       (serve (mkGlobals (mkApp [root_rule] {["home_route" := home_route]}))
          req w)) =
  if bool_decide ((method req = "GET" \/ method req = "HEAD") /\ path req = "/")
  then 1%nat else 0%nat.
Proof.
  rewrite serve_run.
  destruct (decide ("/" = path req)) as [Hp|Hp].
  - destruct (decide (method req = "OPTIONS")) as [Ho|Ho].
    + rewrite bool_decide_eq_false_2; [reflexivity|].
      rewrite Ho. intros [[H|H] _]; discriminate H.
    + destruct (decide (method req = "GET" \/ method req = "HEAD")) as [Hg|Hg].
      * rewrite bool_decide_eq_true_2 by (split; [exact Hg|congruence]).
        reflexivity.
      * rewrite bool_decide_eq_false_2 by tauto. reflexivity.
  - rewrite bool_decide_eq_false_2; [reflexivity|].
    intros [_ H]. congruence.
Qed.

Lemma serve_returns (req : Request) (w : Py.World) :
  exists rep tr,
    serve (mkGlobals (mkApp [root_rule] {["home_route" := home_route]})) req w
    = Py.mkResult (Py.Returned rep) w tr.
Proof. rewrite serve_run. repeat case_decide; eauto. Qed.

(** A run of requests, one by one: each reply is the reply the request gets
    when served alone, and the calls of the root handler add up. *)
Lemma mapM_serve_pointwise (reqs : list Request) (w : Py.World) :
  exists reps tr,
    Py.mapM
      (serve (mkGlobals (mkApp [root_rule] {["home_route" := home_route]})))
      reqs w = Py.mkResult (Py.Returned reps) w tr /\
    Forall2
      (fun req rep =>
         Py.value
           (serve (mkGlobals (mkApp [root_rule] {["home_route" := home_route]}))
              req w) = Py.Returned rep)
      reqs reps /\
    Py.count_calls "home_route" tr =
    length
      (List.filter
         (fun req =>
            bool_decide
              ((method req = "GET" \/ method req = "HEAD") /\ path req = "/"))
         reqs).
Proof.
  induction reqs as [|req reqs IH].
  - exists [], []. simpl. auto.
  - destruct IH as (reps & tr & Hrun & Hall & Hcount).
    destruct (serve_returns req w) as (rep & tr1 & Hserve).
    exists (rep :: reps), (tr1 ++ tr)%list.
    pose proof (serve_count_calls req w) as Hc1. rewrite Hserve in Hc1.
    simpl in Hc1 |- *.
    rewrite (bind_returned _ _ w w rep tr1) by exact Hserve.
    rewrite (bind_returned _ _ w w reps tr) by exact Hrun.
    simpl. rewrite app_nil_r. split; [reflexivity|]. split.
    + constructor; [rewrite Hserve; reflexivity|exact Hall].
    + rewrite count_calls_app, Hc1, Hcount.
      destruct (bool_decide _); reflexivity.
Qed.

(** X5.  In the life of a process the requests do not influence each other:
    whatever the list of requests is, the process answers all of them in
    order, each with the reply it would get if it were served alone, and
    the state of the process at the end is the state at its start. *)
Theorem process_serves_each_alone (reqs : list Request) (w : Py.World) :
  exists g reps,
    Py.value (module_body w) = Py.Returned g /\
    Py.value (process reqs w) = Py.Returned reps /\
    Py.world (process reqs w) = w /\
    Forall2 (fun req rep => Py.value (serve g req w) = Py.Returned rep)
      reqs reps.
Proof.
  destruct (mapM_serve_pointwise reqs w) as (reps & tr & Hrun & Hall & _).
  exists (mkGlobals (mkApp [root_rule] {["home_route" := home_route]})), reps.
  split; [rewrite module_body_run; reflexivity|].
  unfold process, mbind, Py.M_bind.
  rewrite (bind_returned _ _ w w _ [Py.Call "create_app"])
    by apply module_body_run.
  rewrite Hrun. simpl. auto.
Qed.


(** ** Any factory *)


Lemma module_body_with_create_app :
  module_body = module_body_with Config.create_app.
Proof. reflexivity. Qed.
















(** ** The further theorems at concrete inputs *)

(** An application with a route of its own, as a factory might return it. *)
Local Notation health_app :=
  (mkApp [mkRule "/health" ({["GET"]} ∪ {["HEAD"]}) "health" false]
     {["health" := mkViewFunc 2 "health" (Py.call0 (Py.ret (RvStr "ok")))]}).
Local Notation imported_health_app :=
  (mkGlobals
     (mkApp
        [mkRule "/health" ({["GET"]} ∪ {["HEAD"]}) "health" false; root_rule]
        (<["home_route" := home_route]>
           {["health" := mkViewFunc 2 "health"
                           (Py.call0 (Py.ret (RvStr "ok")))]}))).







(** The factory's own route in the application of the last two lemmas
    answers with its view function, before and after the import. *)
Example health_route_served (w : Py.World) :
  serve imported_health_app (mkRequest "GET" "/health" "" [] []) w =
  Py.mkResult
    (Py.Returned (Served (mkResponse 200 "text/html" ∅ (Py.encode "ok"))))
    w [Py.Call "health"].
Proof. vm_compute. reflexivity. Qed.
